(** * A shallow embedding of [supa/storage.py] (supa-fastapi)

    Python values, dictionaries and exceptions are modelled explicitly;
    every coroutine that talks to the storage service is a computation in
    a small writer/error monad [net] that logs the HTTP requests it sends
    and obtains each reply from the service. *)

From Stdlib Require Import String List ZArith Bool Ascii Lia.
Import ListNotations.
Open Scope string_scope.
Set Warnings "-register-all".

(** ** Python values *)

(** [datetime.datetime], as far as this module uses it. *)
Record datetime := mk_datetime {
  dt_year : Z; dt_month : Z; dt_day : Z;
  dt_hour : Z; dt_minute : Z; dt_second : Z
}.

(** Values as the module handles them: decoded JSON, plus [datetime]. *)
Inductive pyval :=
| PNone
| PBool (b : bool)
| PInt (z : Z)
| PStr (s : string)
| PDateTime (d : datetime)
| PList (xs : list pyval)
| PDict (kvs : list (string * pyval)).

(** A Python [dict] with string keys, in insertion order. *)
Definition dict := list (string * pyval).

Fixpoint dict_get (d : dict) (k : string) : option pyval :=
  match d with
  | [] => None
  | (k', v) :: t => if String.eqb k k' then Some v else dict_get t k
  end.

(** [d[k] = v]: replaces the value in place, or appends a new key. *)
Fixpoint dict_setitem (d : dict) (k : string) (v : pyval) : dict :=
  match d with
  | [] => [(k, v)]
  | (k', v') :: t =>
      if String.eqb k k' then (k', v) :: t else (k', v') :: dict_setitem t k v
  end.

(** [{**d, **o}]: every item of [o] set into [d], left to right. *)
Definition dict_update (d o : dict) : dict :=
  fold_left (fun acc kv => dict_setitem acc (fst kv) (snd kv)) o d.

(** Keys of a Python dict are pairwise distinct. *)
Fixpoint nodup_keys (d : dict) : bool :=
  match d with
  | [] => true
  | (k, _) :: t => negb (existsb (String.eqb k) (map fst t)) && nodup_keys t
  end.

(** ** Exceptions and the error monad *)

Inductive exn :=
| StorageError (payload : pyval)           (** supa.exceptions.StorageError *)
| JSONDecodeError                          (** json.JSONDecodeError *)
| FrozenInstanceError (attr : string)      (** dataclasses.FrozenInstanceError *)
| TypeError (msg : string)
| ValueError (msg : string)
| KeyError (key : string)
| InvalidURL (url : string).               (** httpx.InvalidURL *)

Inductive result (A : Type) :=
| Ok (a : A)
| Err (e : exn).
Arguments Ok {A} a.
Arguments Err {A} e.

Definition rbind {A B} (m : result A) (f : A -> result B) : result B :=
  match m with
  | Ok a => f a
  | Err e => Err e
  end.

Notation "x <- m ;; k" := (rbind m (fun x => k))
  (at level 61, m at next level, right associativity).

(** [[f(x) for x in xs]]: the first exception aborts the comprehension. *)
Fixpoint rmap {A B} (f : A -> result B) (xs : list A) : result (list B) :=
  match xs with
  | [] => Ok []
  | x :: t => y <- f x;; ys <- rmap f t;; Ok (y :: ys)
  end.

(** ** HTTP, as used through [httpx.AsyncClient] *)

(** The shared [AsyncClient]: [str(client.base_url)] and [client.headers]. *)
Record session := mk_session {
  base_url : string;
  session_headers : dict
}.

(** One part of a multipart body: [(filename, file, content_type)]. *)
Record multipart_part := mk_part {
  part_filename : string;
  part_content : string;
  part_content_type : pyval
}.

(** A call on a session: the session, method, URL relative to the
    session's base URL, and the [json=], [headers=] and [files=]
    arguments ([None] when the call does not pass one). *)
Record request := mk_request {
  req_session : session;
  req_method : string;
  req_url : string;
  req_json : option pyval;
  req_headers : option dict;
  req_files : option (list (string * multipart_part))
}.

Record response := mk_response {
  status_code : Z;
  content : string
}.

(** [response.is_success], which [raise_for_status] tests. *)
Definition is_success (r : response) : bool :=
  (200 <=? status_code r)%Z && (status_code r <? 300)%Z.

(** [AsyncClient.get] and [AsyncClient.delete] take, besides the URL, only
    [params], [headers], [cookies], [auth], [follow_redirects], [timeout]
    and [extensions]: no [content], [data], [files] or [json]. [post]
    takes all of them. A call with a keyword argument that its method does
    not take raises [TypeError] while its arguments are bound, before any
    request is built or sent. *)
Definition client_call (q : request) : result request :=
  let m := req_method q in
  if String.eqb m "GET" || String.eqb m "DELETE" then
    let name := if String.eqb m "GET" then "get" else "delete" in
    match req_json q, req_files q with
    | Some _, _ =>
        Err (TypeError ("AsyncClient." ++ name ++ "() got an unexpected keyword argument 'json'"))
    | None, Some _ =>
        Err (TypeError ("AsyncClient." ++ name ++ "() got an unexpected keyword argument 'files'"))
    | None, None => Ok q
    end
  else Ok q.

(** *** [httpx.URL], as the client's base URL *)

(** A parsed [httpx.URL]: scheme, authority ([userinfo@host:port] as
    httpx normalises it), path, query and fragment, all percent-encoded. *)
Record httpx_url := mk_url {
  url_scheme : string;
  url_authority : string;
  url_path : string;
  url_query : option string;
  url_fragment : option string
}.

(** [s.endswith("/")] *)
Fixpoint ends_with_slash (s : string) : bool :=
  match s with
  | EmptyString => false
  | String c EmptyString => Ascii.eqb c "/"%char
  | String _ t => ends_with_slash t
  end.

(** Splits [s] before its first character satisfying [stop]. *)
Fixpoint span_until (stop : ascii -> bool) (s : string) : string * string :=
  match s with
  | EmptyString => (EmptyString, EmptyString)
  | String c t =>
      if stop c then (EmptyString, s)
      else let (a, b) := span_until stop t in (String c a, b)
  end.

(** [path, has_query, query = raw_path.partition("?")], with the query
    [None] when there is no ["?"]. *)
Definition partition_query (s : string) : string * option string :=
  let (p, r) := span_until (fun c => Ascii.eqb c "?"%char) s in
  match r with
  | EmptyString => (p, None)
  | String _ q => (p, Some q)
  end.

(** [URL.raw_path]: the path, or ["/"] when it is empty, followed by
    ["?"] and the query when there is one. *)
Definition raw_path (u : httpx_url) : string :=
  (if String.eqb (url_path u) "" then "/" else url_path u) ++
  match url_query u with
  | Some q => "?" ++ q
  | None => ""
  end.

(** [str(url)]: [scheme:], [//authority], path, [?query], [#fragment],
    each part only when present. *)
Definition url_str (u : httpx_url) : string :=
  (if String.eqb (url_scheme u) "" then "" else url_scheme u ++ ":") ++
  (if String.eqb (url_authority u) "" then "" else "//" ++ url_authority u) ++
  url_path u ++
  (match url_query u with Some q => "?" ++ q | None => "" end) ++
  (match url_fragment u with Some f => "#" ++ f | None => "" end).

(** [BaseClient._enforce_trailing_slash]: unless [url.raw_path] ends with
    ["/"], [url.copy_with(raw_path=url.raw_path + b"/")], which splits the
    new raw path into path and query again (its parts are already encoded,
    so re-validating them changes nothing). *)
Definition _enforce_trailing_slash (u : httpx_url) : httpx_url :=
  if ends_with_slash (raw_path u) then u
  else let (p, q) := partition_query (raw_path u ++ "/") in
       mk_url (url_scheme u) (url_authority u) p q (url_fragment u).

(** *** [httpx.Headers] *)

Definition ascii_lower (c : ascii) : ascii :=
  let n := nat_of_ascii c in
  if (65 <=? n)%nat && (n <=? 90)%nat then ascii_of_nat (n + 32) else c.

Fixpoint lower (s : string) : string :=
  match s with
  | EmptyString => EmptyString
  | String c t => String (ascii_lower c) (lower t)
  end.

(** Header names compare case-insensitively. *)
Definition header_eqb (a b : string) : bool := String.eqb (lower a) (lower b).

(** [Headers.update(other)]: every header whose name occurs in [other] is
    removed, then the items of [other] are appended. *)
Definition headers_update (d o : dict) : dict :=
  (filter (fun kv => negb (existsb (fun kv' => header_eqb (fst kv) (fst kv')) o)) d ++ o)%list.

(** The values [headers.get_list(k)] returns. *)
Definition header_values (d : dict) (k : string) : list pyval :=
  map snd (filter (fun kv => header_eqb (fst kv) k) d).

(** The headers every [AsyncClient] starts from; the [Accept-Encoding] and
    [User-Agent] values depend on the installed httpx. *)
Definition httpx_default_headers (accept_encoding user_agent : string) : dict :=
  [("Accept", PStr "*/*"); ("Accept-Encoding", PStr accept_encoding);
   ("Connection", PStr "keep-alive"); ("User-Agent", PStr user_agent)].

(** Requests sent, in order, and the outcome. *)
Definition net (A : Type) : Type := list request * result A.

Definition nret {A} (a : A) : net A := ([], Ok a).

Definition lift {A} (r : result A) : net A := ([], r).

Definition nbind {A B} (m : net A) (f : A -> net B) : net B :=
  match m with
  | (log, Ok a) => let (log', r) := f a in (app log log', r)
  | (log, Err e) => (log, Err e)
  end.

Notation "x <-- m ;; k" := (nbind m (fun x => k))
  (at level 61, m at next level, right associativity).

(** ** Records *)

(** [@dataclass(frozen=True) class File] *)
Record File := mk_File {
  f_name : pyval;
  f_bucket_id : pyval;
  f_owner : pyval;
  f_id : pyval;
  f_created_at : pyval;
  f_updated_at : pyval;
  f_last_accessed_at : pyval;
  f_metadata : pyval
}.

Definition File_frozen : bool := true.

Definition File_fields : list string :=
  ["name"; "bucket_id"; "owner"; "id"; "created_at"; "updated_at";
   "last_accessed_at"; "metadata"].

(** [@dataclass class Bucket] *)
Record Bucket := mk_Bucket {
  b_id : pyval;
  b_name : pyval;
  b_owner : pyval;
  b_public : pyval;
  b_created_at : pyval;
  b_updated_at : pyval;
  b_client : session
}.

Definition Bucket_frozen : bool := false.

(** The fields of [Bucket] other than [_client], which is passed apart. *)
Definition Bucket_fields : list string :=
  ["id"; "name"; "owner"; "public"; "created_at"; "updated_at"].

Record StorageClient := mk_StorageClient {
  sc_url : string;
  sc_client : session
}.

(** ** String conversions used by f-strings and [str()] *)

Fixpoint digits_of (fuel : nat) (n : Z) (acc : string) : string :=
  match fuel with
  | O => acc
  | S f =>
      let acc' := String (ascii_of_nat (48 + Z.to_nat (n mod 10))) acc in
      if (n <? 10)%Z then acc' else digits_of f (n / 10)%Z acc'
  end.

(** [str(z)] for an [int]. *)
Definition int_repr (z : Z) : string :=
  let fuel := S (Z.to_nat (Z.log2 (Z.abs z))) in
  if (z <? 0)%Z then "-" ++ digits_of fuel (- z)%Z "" else digits_of fuel z "".

(** [str(b)] for a [bool]. *)
Definition bool_repr (b : bool) : string := if b then "True" else "False".

(** [str(v)], as an f-string formats the scalar values met here. *)
Definition py_str (v : pyval) : string :=
  match v with
  | PNone => "None"
  | PBool b => bool_repr b
  | PInt z => int_repr z
  | PStr s => s
  | PDateTime _ => "<datetime>"
  | PList _ => "<list>"
  | PDict _ => "<dict>"
  end.

(** Index of the last occurrence of [c] in [s], scanning from index [i]. *)
Fixpoint rfind_from (c : ascii) (s : string) (i : nat) (last : option nat)
  : option nat :=
  match s with
  | EmptyString => last
  | String c' t =>
      rfind_from c t (S i) (if Ascii.eqb c c' then Some i else last)
  end.

(** [s.rsplit(sep, maxsplit=1)] for a one-character separator. *)
Definition rsplit_once (sep : ascii) (s : string) : list string :=
  match rfind_from sep s 0 None with
  | None => [s]
  | Some i => [substring 0 i s; substring (S i) (String.length s - S i) s]
  end.

(** [xs[-1]] on a non-empty list. *)
Definition py_last (xs : list string) : string := last xs "".

(** [s or d] on an [Optional[str]]. *)
Definition py_or (o : option string) (d : string) : string :=
  match o with
  | Some s => if String.eqb s "" then d else s
  | None => d
  end.

(** ** Python object protocol used by the module *)

(** [for x in v]: lists yield their items, dicts their keys, strings
    their characters. *)
Definition py_iter (v : pyval) : result (list pyval) :=
  match v with
  | PList xs => Ok xs
  | PDict kvs => Ok (map (fun kv => PStr (fst kv)) kvs)
  | PStr s => Ok (map (fun c => PStr (String c EmptyString)) (list_ascii_of_string s))
  | _ => Err (TypeError "object is not iterable")
  end.

(** [v[k]] with a string key. *)
Definition py_getitem (v : pyval) (k : string) : result pyval :=
  match v with
  | PDict kvs =>
      match dict_get kvs k with
      | Some x => Ok x
      | None => Err (KeyError k)
      end
  | _ => Err (TypeError "object is not subscriptable with a str")
  end.

(** Binding [**kwargs] to the parameters [fields] of a dataclass
    [__init__]: an unknown key or a missing field is a [TypeError]. *)
Fixpoint bind_fields (fields : list string) (kvs : dict) : option (list pyval) :=
  match fields with
  | [] => Some []
  | f :: fs =>
      match dict_get kvs f, bind_fields fs kvs with
      | Some v, Some vs => Some (v :: vs)
      | _, _ => None
      end
  end.

Definition kwargs_bind (fields : list string) (kvs : dict) : option (list pyval) :=
  if forallb (fun kv => existsb (String.eqb (fst kv)) fields) kvs
  then bind_fields fields kvs else None.

(** [self.attr = v] on a dataclass instance: a frozen dataclass's
    [__setattr__] raises [FrozenInstanceError]. *)
Definition dataclass_setattr {A} (frozen : bool) (attr : string)
  (upd : A -> A) (self : A) : result A :=
  if frozen then Err (FrozenInstanceError attr) else Ok (upd self).

Definition set_f_created_at (v : pyval) (f : File) : File :=
  mk_File (f_name f) (f_bucket_id f) (f_owner f) (f_id f) v
    (f_updated_at f) (f_last_accessed_at f) (f_metadata f).
Definition set_f_updated_at (v : pyval) (f : File) : File :=
  mk_File (f_name f) (f_bucket_id f) (f_owner f) (f_id f) (f_created_at f)
    v (f_last_accessed_at f) (f_metadata f).
Definition set_f_last_accessed_at (v : pyval) (f : File) : File :=
  mk_File (f_name f) (f_bucket_id f) (f_owner f) (f_id f) (f_created_at f)
    (f_updated_at f) v (f_metadata f).
Definition set_b_created_at (v : pyval) (b : Bucket) : Bucket :=
  mk_Bucket (b_id b) (b_name b) (b_owner b) (b_public b) v
    (b_updated_at b) (b_client b).
Definition set_b_updated_at (v : pyval) (b : Bucket) : Bucket :=
  mk_Bucket (b_id b) (b_name b) (b_owner b) (b_public b) (b_created_at b)
    v (b_client b).

(** [DEFAULT_SEARCH_OPTIONS] *)
Definition DEFAULT_SEARCH_OPTIONS : dict :=
  [("limit", PInt 100); ("offset", PInt 0);
   ("sortBy", PDict [("column", PStr "name"); ("order", PStr "asc")])].

(** ** Requests built by the operations

    Each network operation makes exactly one call on its session; the
    builders below are the arguments of that call (method, URL and
    keyword arguments), verbatim. *)

(** [client.delete(f"/bucket/{id}")] in [_delete_bucket] *)
Definition delete_bucket_request (c : session) (id : pyval) : request :=
  mk_request c "DELETE" ("/bucket/" ++ py_str id) None None None.

(** [client.post(f"/bucket/{id}/empty", json={})] in [_empty_bucket] *)
Definition empty_bucket_request (c : session) (id : pyval) : request :=
  mk_request c "POST" ("/bucket/" ++ py_str id ++ "/empty") (Some (PDict [])) None None.

(** [client.get(f"/object/authenticated/{fp}")] in [_download_content] *)
Definition download_request (c : session) (fp : string) : request :=
  mk_request c "GET" ("/object/authenticated/" ++ fp) None None None.

(** [Bucket.get_public_url]: no request at all. *)
Definition get_public_url (self : Bucket) (path : string) : string :=
  base_url (b_client self) ++ "/object/public/" ++ path.

Definition create_signed_url_request (self : Bucket) (path : string) (expires_in : Z)
  : request :=
  mk_request (b_client self) "POST"
    ("/object/sign/" ++ py_str (b_name self) ++ "/" ++ path)
    (Some (PDict [("expiresIn", PStr (int_repr expires_in))])) None None.

Definition move_request (self : Bucket) (from_path to_path : string) : request :=
  let json := PDict [("bucketId", b_id self); ("sourceKey", PStr from_path);
                     ("destinationKey", PStr to_path)] in
  mk_request (b_client self) "POST" "/object/move" (Some json) None None.

Definition copy_request (self : Bucket) (file_path target : string) : request :=
  let json := PDict [("bucketId", b_id self); ("sourceKey", PStr file_path);
                     ("destinationKey", PStr target)] in
  mk_request (b_client self) "POST" "/object/move" (Some json) None None.

Definition remove_request (self : Bucket) (path : string) : request :=
  mk_request (b_client self) "DELETE" ("/object/" ++ py_str (b_name self) ++ "/" ++ path)
    None None None.

Definition bulk_remove_request (self : Bucket) (paths : list string) : request :=
  mk_request (b_client self) "DELETE" ("/object/" ++ py_str (b_name self))
    (Some (PDict [("prefixes", PList (map PStr paths))])) None None.

(** [{"prefix": path or "", **DEFAULT_SEARCH_OPTIONS, **options}] *)
Definition list_body (path : option string) (options : dict) : dict :=
  dict_update (dict_update [("prefix", PStr (py_or path ""))] DEFAULT_SEARCH_OPTIONS)
    options.

Definition list_request (self : Bucket) (path : option string) (options : dict)
  : request :=
  let json := list_body path options in
  let headers := dict_setitem (dict_update [] (session_headers (b_client self)))
                   "Content-Type" (PStr "application/json") in
  mk_request (b_client self) "POST" ("/object/list/" ++ py_str (b_name self))
    (Some (PDict json)) (Some headers) None.

(** The [headers] dict built by [Bucket.upload]. *)
Definition upload_headers (c : session) (cache_control : Z) (mime_type : string)
  (upsert : bool) : dict :=
  dict_update (dict_update [] (session_headers c))
    [("cacheControl", PInt cache_control); ("contentType", PStr mime_type);
     ("upsert", PStr (bool_repr upsert)); ("Content-Type", PStr mime_type)].

(** [Bucket.upload]'s request: [headers] only feeds [headers["contentType"]]
    into the [files] tuple (the key was set on the line before, so the
    lookup cannot miss); the call passes [files=files] alone. *)
Definition upload_request (self : Bucket) (path : string) (file : string)
  (cache_control : Z) (mime_type : string) (upsert : bool) : request :=
  let headers := upload_headers (b_client self) cache_control mime_type upsert in
  let filename := py_last (rsplit_once "/" path) in
  let ctype := match dict_get headers "contentType" with Some v => v | None => PNone end in
  let files := [("file", mk_part filename file ctype)] in
  mk_request (b_client self) "POST" ("/object/" ++ py_str (b_name self) ++ "/" ++ path)
    None None (Some files).

Definition list_buckets_request (self : StorageClient) : request :=
  mk_request (sc_client self) "GET" "/bucket" None None None.

Definition get_bucket_request (self : StorageClient) (id : string) : request :=
  mk_request (sc_client self) "GET" ("/bucket/" ++ id) None None None.

Definition create_bucket_request (self : StorageClient) (id : string)
  (name : option string) (public : bool) : request :=
  mk_request (sc_client self) "POST" "/bucket"
    (Some (PDict [("id", PStr id); ("name", PStr (py_or name id));
                  ("public", PBool public)])) None None.

Section Httpx.

(** [httpx.URL(s)]: the parsed, normalised URL (lower-case scheme and
    host, default port dropped, percent-encoding, dot segments removed),
    or [None] when httpx raises [InvalidURL]. *)
Variable httpx_urlparse : string -> option httpx_url.
(** The installed httpx's [Accept-Encoding] and [User-Agent] values. *)
Variable accept_encoding user_agent : string.

(** [AsyncClient(base_url=url, headers=headers)]: the base URL is parsed
    and given a trailing slash, the headers are the defaults updated with
    [headers]. *)
Definition AsyncClient_init (url : string) (headers : dict) : result session :=
  match httpx_urlparse url with
  | Some u =>
      Ok (mk_session (url_str (_enforce_trailing_slash u))
            (headers_update (httpx_default_headers accept_encoding user_agent) headers))
  | None => Err (InvalidURL url)
  end.

(** [StorageClient.__init__]: one [AsyncClient] for the client's lifetime. *)
Definition StorageClient_init (url : string) (headers : dict) : result StorageClient :=
  c <- AsyncClient_init url headers;; Ok (mk_StorageClient url c).

End Httpx.

(** ** The operations

    The JSON decoder, [datetime.fromisoformat], the clock and the storage
    service are the external collaborators of the module. *)

Section Storage.

(** [json.loads]: [None] when the text is not valid JSON. *)
Variable json_loads : string -> option pyval.
(** [datetime.fromisoformat] on a [str]: [None] when it raises [ValueError]. *)
Variable fromisoformat : string -> option datetime.
(** [datetime.now()] *)
Variable now : datetime.
(** The reply of the storage service to a request. *)
Variable service : request -> response.

(** [await self._client.<method>(url, ...)]: the call's arguments are
    bound, then the request is sent and the service's reply received. *)
Definition send (q : request) : net response :=
  match client_call q with
  | Ok q => ([q], Ok (service q))
  | Err e => ([], Err e)
  end.

(** [r.json()] *)
Definition response_json (r : response) : result pyval :=
  match json_loads (content r) with
  | Some v => Ok v
  | None => Err JSONDecodeError
  end.

(** [_handle_response]: [raise_for_status()] raises on a non-2xx
    response; the handler then raises [StorageError(r.json())]. *)
Definition _handle_response (r : response) : result response :=
  if is_success r then Ok r
  else (v <- response_json r;; Err (StorageError v)).

(** [datetime.fromisoformat(v)] *)
Definition fromisoformat_py (v : pyval) : result pyval :=
  match v with
  | PStr s =>
      match fromisoformat s with
      | Some d => Ok (PDateTime d)
      | None => Err (ValueError ("Invalid isoformat string: " ++ s))
      end
  | _ => Err (TypeError "fromisoformat: argument must be str")
  end.

(** [File.__post_init__] *)
Definition File_post_init (self : File) : result File :=
  v <- fromisoformat_py (f_created_at self);;
  self <- dataclass_setattr File_frozen "created_at" (set_f_created_at v) self;;
  v <- fromisoformat_py (f_updated_at self);;
  self <- dataclass_setattr File_frozen "updated_at" (set_f_updated_at v) self;;
  v <- fromisoformat_py (f_last_accessed_at self);;
  self <- dataclass_setattr File_frozen "last_accessed_at" (set_f_last_accessed_at v) self;;
  Ok self.

(** [File(...)]: the generated [__init__] stores the arguments, then
    calls [__post_init__]. *)
Definition File_new (name bucket_id owner id created_at updated_at
  last_accessed_at metadata : pyval) : result File :=
  File_post_init
    (mk_File name bucket_id owner id created_at updated_at last_accessed_at metadata).

(** [File( **i)] *)
Definition File_from_kwargs (i : pyval) : result File :=
  match i with
  | PDict kvs =>
      match kwargs_bind File_fields kvs with
      | Some [a; b; c; d; e; f; g; h] => File_new a b c d e f g h
      | _ => Err (TypeError "File.__init__() got unexpected or missing arguments")
      end
  | _ => Err (TypeError "argument after ** must be a mapping")
  end.

(** [Bucket.__post_init__] *)
Definition Bucket_post_init (self : Bucket) : result Bucket :=
  v <- fromisoformat_py (b_created_at self);;
  self <- dataclass_setattr Bucket_frozen "created_at" (set_b_created_at v) self;;
  v <- fromisoformat_py (b_updated_at self);;
  self <- dataclass_setattr Bucket_frozen "updated_at" (set_b_updated_at v) self;;
  Ok self.

(** [Bucket(...)] *)
Definition Bucket_new (id name owner public created_at updated_at : pyval)
  (_client : session) : result Bucket :=
  Bucket_post_init (mk_Bucket id name owner public created_at updated_at _client).

(** [Bucket( **i, _client=c)]: a key [_client] in [i] is refused too. *)
Definition Bucket_from_kwargs (c : session) (i : pyval) : result Bucket :=
  match i with
  | PDict kvs =>
      match kwargs_bind Bucket_fields kvs with
      | Some [a; b; d; e; f; g] => Bucket_new a b d e f g c
      | _ => Err (TypeError "Bucket.__init__() got unexpected or missing arguments")
      end
  | _ => Err (TypeError "argument after ** must be a mapping")
  end.

(** [_delete_bucket] *)
Definition _delete_bucket (client : session) (id : pyval) : net pyval :=
  r <-- send (delete_bucket_request client id);;
  r <-- lift (_handle_response r);;
  lift (response_json r).

(** [_empty_bucket] *)
Definition _empty_bucket (client : session) (id : pyval) : net pyval :=
  r <-- send (empty_bucket_request client id);;
  r <-- lift (_handle_response r);;
  lift (response_json r).

(** [_download_content]: the raw body, [r.content]. *)
Definition _download_content (client : session) (fp : string) : net string :=
  r <-- send (download_request client fp);;
  r <-- lift (_handle_response r);;
  nret (content r).

(** *** [Bucket] methods *)

Definition create_signed_url (self : Bucket) (path : string) (expires_in : Z)
  : net pyval :=
  r <-- send (create_signed_url_request self path expires_in);;
  r <-- lift (_handle_response r);;
  lift (j <- response_json r;; py_getitem j "signedURL").

Definition Bucket_delete (self : Bucket) : net pyval :=
  _delete_bucket (b_client self) (b_id self).

Definition Bucket_empty (self : Bucket) : net pyval :=
  _empty_bucket (b_client self) (b_id self).

Definition move (self : Bucket) (from_path to_path : string) : net pyval :=
  r <-- send (move_request self from_path to_path);;
  r <-- lift (_handle_response r);;
  lift (response_json r).

Definition copy (self : Bucket) (file_path target : string) : net pyval :=
  r <-- send (copy_request self file_path target);;
  r <-- lift (_handle_response r);;
  lift (response_json r).

Definition remove (self : Bucket) (path : string) : net pyval :=
  r <-- send (remove_request self path);;
  r <-- lift (_handle_response r);;
  lift (response_json r).

(** [self._client.delete(f"/object/{self.name}", json={"prefixes": paths})]
    passes [json=] to [AsyncClient.delete], which does not take it; then
    [[File( **i) for i in r.json()]]. *)
Definition bulk_remove (self : Bucket) (paths : list string) : net (list File) :=
  r <-- send (bulk_remove_request self paths);;
  r <-- lift (_handle_response r);;
  lift (j <- response_json r;; items <- py_iter j;; rmap File_from_kwargs items).

Definition Bucket_list (self : Bucket) (path : option string) (options : dict)
  : net (list File) :=
  r <-- send (list_request self path options);;
  r <-- lift (_handle_response r);;
  lift (j <- response_json r;; items <- py_iter j;; rmap File_from_kwargs items).

Definition download (self : Bucket) (path : string) : net string :=
  _download_content (b_client self) (py_str (b_name self) ++ "/" ++ path).

Definition upload (self : Bucket) (path : string) (file : string)
  (cache_control : Z) (mime_type : string) (upsert : bool) : net pyval :=
  r <-- send (upload_request self path file cache_control mime_type upsert);;
  r <-- lift (_handle_response r);;
  lift (response_json r).

(** *** [StorageClient] methods *)

Definition list_buckets (self : StorageClient) : net (list Bucket) :=
  r <-- send (list_buckets_request self);;
  r <-- lift (_handle_response r);;
  lift (data <- response_json r;; items <- py_iter data;;
        rmap (Bucket_from_kwargs (sc_client self)) items).

Definition get_bucket (self : StorageClient) (id : string) : net Bucket :=
  r <-- send (get_bucket_request self id);;
  r <-- lift (_handle_response r);;
  lift (data <- response_json r;; Bucket_from_kwargs (sc_client self) data).

(** [now = datetime.now()] is passed as it is, a [datetime], to [Bucket]. *)
Definition create_bucket (self : StorageClient) (id : string)
  (name : option string) (public : bool) : net Bucket :=
  r <-- send (create_bucket_request self id name public);;
  r <-- lift (_handle_response r);;
  lift (Bucket_new (PStr id) (PStr (py_or name id)) PNone (PBool public)
          (PDateTime now) (PDateTime now) (sc_client self)).

Definition empty_bucket (self : StorageClient) (id : string) : net pyval :=
  _empty_bucket (sc_client self) (PStr id).

Definition delete_bucket (self : StorageClient) (id : string) : net pyval :=
  _delete_bucket (sc_client self) (PStr id).

End Storage.

(** ** The network operations, one constructor per public coroutine *)

Inductive op :=
| OpListBuckets (sc : StorageClient)
| OpGetBucket (sc : StorageClient) (id : string)
| OpCreateBucket (sc : StorageClient) (id : string) (name : option string) (public : bool)
| OpEmptyBucket (sc : StorageClient) (id : string)
| OpDeleteBucket (sc : StorageClient) (id : string)
| OpCreateSignedUrl (b : Bucket) (path : string) (expires_in : Z)
| OpDelete (b : Bucket)
| OpEmpty (b : Bucket)
| OpMove (b : Bucket) (from_path to_path : string)
| OpCopy (b : Bucket) (file_path target : string)
| OpRemove (b : Bucket) (path : string)
| OpBulkRemove (b : Bucket) (paths : list string)
| OpList (b : Bucket) (path : option string) (options : dict)
| OpDownload (b : Bucket) (path : string)
| OpUpload (b : Bucket) (path file : string) (cache_control : Z) (mime_type : string)
    (upsert : bool).

(** What a call returns. *)
Inductive outcome :=
| RBuckets (bs : list Bucket)
| RBucket (b : Bucket)
| RFiles (fs : list File)
| RValue (v : pyval)
| RContent (s : string).

(** The session call each operation makes: method, URL and the keyword
    arguments it passes. *)
Definition op_request (o : op) : request :=
  match o with
  | OpListBuckets sc => list_buckets_request sc
  | OpGetBucket sc id => get_bucket_request sc id
  | OpCreateBucket sc id name public => create_bucket_request sc id name public
  | OpEmptyBucket sc id => empty_bucket_request (sc_client sc) (PStr id)
  | OpDeleteBucket sc id => delete_bucket_request (sc_client sc) (PStr id)
  | OpCreateSignedUrl b path e => create_signed_url_request b path e
  | OpDelete b => delete_bucket_request (b_client b) (b_id b)
  | OpEmpty b => empty_bucket_request (b_client b) (b_id b)
  | OpMove b x y => move_request b x y
  | OpCopy b x y => copy_request b x y
  | OpRemove b path => remove_request b path
  | OpBulkRemove b paths => bulk_remove_request b paths
  | OpList b path options => list_request b path options
  | OpDownload b path => download_request (b_client b) (py_str (b_name b) ++ "/" ++ path)
  | OpUpload b path file cc mt u => upload_request b path file cc mt u
  end.

(** Whether the session accepts the arguments of the operation's call,
    so that the request is sent. *)
Definition sends_request (o : op) : bool :=
  match client_call (op_request o) with
  | Ok _ => true
  | Err _ => false
  end.

Section Run.
Variable json_loads : string -> option pyval.
Variable fromisoformat : string -> option datetime.
Variable now : datetime.
Variable service : request -> response.

Definition run_op (o : op) : net outcome :=
  match o with
  | OpListBuckets sc =>
      bs <-- list_buckets json_loads fromisoformat service sc;; nret (RBuckets bs)
  | OpGetBucket sc id =>
      b <-- get_bucket json_loads fromisoformat service sc id;; nret (RBucket b)
  | OpCreateBucket sc id name public =>
      b <-- create_bucket json_loads fromisoformat now service sc id name public;;
      nret (RBucket b)
  | OpEmptyBucket sc id => v <-- empty_bucket json_loads service sc id;; nret (RValue v)
  | OpDeleteBucket sc id => v <-- delete_bucket json_loads service sc id;; nret (RValue v)
  | OpCreateSignedUrl b path e =>
      v <-- create_signed_url json_loads service b path e;; nret (RValue v)
  | OpDelete b => v <-- Bucket_delete json_loads service b;; nret (RValue v)
  | OpEmpty b => v <-- Bucket_empty json_loads service b;; nret (RValue v)
  | OpMove b x y => v <-- move json_loads service b x y;; nret (RValue v)
  | OpCopy b x y => v <-- copy json_loads service b x y;; nret (RValue v)
  | OpRemove b path => v <-- remove json_loads service b path;; nret (RValue v)
  | OpBulkRemove b paths =>
      fs <-- bulk_remove json_loads fromisoformat service b paths;; nret (RFiles fs)
  | OpList b path options =>
      fs <-- Bucket_list json_loads fromisoformat service b path options;; nret (RFiles fs)
  | OpDownload b path => s <-- download json_loads service b path;; nret (RContent s)
  | OpUpload b path file cc mt u =>
      v <-- upload json_loads service b path file cc mt u;; nret (RValue v)
  end.

End Run.

(** ** Concrete collaborators for running the operations on examples *)

Module Basic.

Open Scope char_scope.

Definition is_ws (c : ascii) : bool :=
  match c with
  | " " | "010" | "013" | "009" => true
  | _ => false
  end.

Fixpoint skip_ws (s : list ascii) : list ascii :=
  match s with
  | c :: t => if is_ws c then skip_ws t else s
  | [] => []
  end.

Definition digit_val (c : ascii) : option Z :=
  let n := nat_of_ascii c in
  if (48 <=? n)%nat && (n <=? 57)%nat then Some (Z.of_nat (n - 48)) else None.

(** A string body, without escapes. *)
Fixpoint parse_chars (s : list ascii) (acc : list ascii) : option (string * list ascii) :=
  match s with
  | [] => None
  | c :: t =>
      if Ascii.eqb c "034" then Some (string_of_list_ascii (rev acc), t)
      else parse_chars t (c :: acc)
  end.

Fixpoint parse_digits (s : list ascii) (acc : Z) : Z * list ascii :=
  match s with
  | c :: t =>
      match digit_val c with
      | Some d => parse_digits t (10 * acc + d)%Z
      | None => (acc, s)
      end
  | [] => (acc, s)
  end.

Definition parse_int (s : list ascii) : option (Z * list ascii) :=
  match s with
  | "-" :: c :: t =>
      match digit_val c with
      | Some d => let (z, r) := parse_digits t d in Some ((- z)%Z, r)
      | None => None
      end
  | c :: t =>
      match digit_val c with
      | Some d => Some (parse_digits t d)
      | None => None
      end
  | [] => None
  end.

(** Objects, arrays, strings without escapes, integers, [true], [false]
    and [null]; a repeated key keeps its last value, as [json.loads]. *)
Fixpoint parse_value (fuel : nat) (s : list ascii) : option (pyval * list ascii) :=
  match fuel with
  | O => None
  | S f =>
      match skip_ws s with
      | "{" :: t =>
          match skip_ws t with
          | "}" :: t' => Some (PDict [], t')
          | t' => parse_members f t' []
          end
      | "[" :: t =>
          match skip_ws t with
          | "]" :: t' => Some (PList [], t')
          | t' => parse_elems f t' []
          end
      | "034" :: t =>
          match parse_chars t [] with
          | Some (str, t') => Some (PStr str, t')
          | None => None
          end
      | "t" :: "r" :: "u" :: "e" :: t => Some (PBool true, t)
      | "f" :: "a" :: "l" :: "s" :: "e" :: t => Some (PBool false, t)
      | "n" :: "u" :: "l" :: "l" :: t => Some (PNone, t)
      | t =>
          match parse_int t with
          | Some (z, t') => Some (PInt z, t')
          | None => None
          end
      end
  end
with parse_members (fuel : nat) (s : list ascii) (acc : dict)
  : option (pyval * list ascii) :=
  match fuel with
  | O => None
  | S f =>
      match skip_ws s with
      | "034" :: t =>
          match parse_chars t [] with
          | Some (k, t1) =>
              match skip_ws t1 with
              | ":" :: t2 =>
                  match parse_value f t2 with
                  | Some (v, t3) =>
                      let acc' := dict_setitem acc k v in
                      match skip_ws t3 with
                      | "," :: t4 => parse_members f t4 acc'
                      | "}" :: t4 => Some (PDict acc', t4)
                      | _ => None
                      end
                  | None => None
                  end
              | _ => None
              end
          | None => None
          end
      | _ => None
      end
  end
with parse_elems (fuel : nat) (s : list ascii) (acc : list pyval)
  : option (pyval * list ascii) :=
  match fuel with
  | O => None
  | S f =>
      match parse_value f s with
      | Some (v, t) =>
          match skip_ws t with
          | "," :: t' => parse_elems f t' (acc ++ [v])
          | "]" :: t' => Some (PList (acc ++ [v]), t')
          | _ => None
          end
      | None => None
      end
  end.

(** A JSON decoder for the fragment above: [None] on anything else. *)
Definition json_loads (s : string) : option pyval :=
  let cs := list_ascii_of_string s in
  match parse_value (S (List.length cs)) cs with
  | Some (v, rest) => match skip_ws rest with [] => Some v | _ => None end
  | None => None
  end.

Close Scope char_scope.

Definition is_leap (y : Z) : bool :=
  (Z.eqb (y mod 4) 0 && negb (Z.eqb (y mod 100) 0)) || Z.eqb (y mod 400) 0.

Definition days_in_month (y m : Z) : Z :=
  if Z.eqb m 2 then (if is_leap y then 29 else 28)
  else if existsb (Z.eqb m) [4; 6; 9; 11]%Z then 30 else 31.

(** A fixed-width field of [n] digits at the front of [s]. *)
Fixpoint take_digits (n : nat) (s : list ascii) (acc : Z) : option (Z * list ascii) :=
  match n with
  | O => Some (acc, s)
  | S k =>
      match s with
      | c :: t =>
          match digit_val c with
          | Some d => take_digits k t (10 * acc + d)%Z
          | None => None
          end
      | [] => None
      end
  end.

Definition check_date (y mo d h mi se : Z) : option datetime :=
  if (1 <=? y)%Z && (1 <=? mo)%Z && (mo <=? 12)%Z && (1 <=? d)%Z
     && (d <=? days_in_month y mo)%Z && (h <=? 23)%Z && (mi <=? 59)%Z && (se <=? 59)%Z
  then Some (mk_datetime y mo d h mi se) else None.

(** [datetime.fromisoformat] on [YYYY-MM-DD] and [YYYY-MM-DDTHH:MM:SS]. *)
Definition fromisoformat (s : string) : option datetime :=
  match take_digits 4 (list_ascii_of_string s) 0 with
  | Some (y, "-"%char :: t1) =>
      match take_digits 2 t1 0 with
      | Some (mo, "-"%char :: t2) =>
          match take_digits 2 t2 0 with
          | Some (d, []) => check_date y mo d 0 0 0
          | Some (d, sep :: t3) =>
              match take_digits 2 t3 0 with
              | Some (h, ":"%char :: t4) =>
                  match take_digits 2 t4 0 with
                  | Some (mi, ":"%char :: t5) =>
                      match take_digits 2 t5 0 with
                      | Some (se, []) =>
                          if Ascii.eqb sep "T"%char || Ascii.eqb sep " "%char
                          then check_date y mo d h mi se else None
                      | _ => None
                      end
                  | _ => None
                  end
              | _ => None
              end
          | None => None
          end
      | _ => None
      end
  | _ => None
  end.

(** The double quote, as a one-character string. *)
Definition dq : string := String "034"%char EmptyString.

(** [json.dumps] on the fragment the decoder reads. *)
Fixpoint json_dumps (v : pyval) : string :=
  match v with
  | PNone | PDateTime _ => "null"
  | PBool b => if b then "true" else "false"
  | PInt z => int_repr z
  | PStr s => dq ++ s ++ dq
  | PList xs => "[" ++ String.concat ", " (map json_dumps xs) ++ "]"
  | PDict kvs =>
      "{" ++ String.concat ", "
               (map (fun kv => match kv with
                               | (k, x) => dq ++ k ++ dq ++ ": " ++ json_dumps x
                               end) kvs) ++ "}"
  end.

(** [httpx.URL(s)] for absolute URLs [scheme://authority[path][?query][#fragment]],
    with scheme and authority in lower case. *)
Definition urlparse (s : string) : option httpx_url :=
  let (scheme, rest) := span_until (fun c => Ascii.eqb c ":") s in
  match rest with
  | String ":" (String "/" (String "/" r)) =>
      let (auth, r1) := span_until (fun c => Ascii.eqb c "/" || Ascii.eqb c "?"
                                              || Ascii.eqb c "#") r in
      let (path, r2) := span_until (fun c => Ascii.eqb c "?" || Ascii.eqb c "#") r1 in
      let (query, r3) :=
        match r2 with
        | String "?" t =>
            let (q, f) := span_until (fun c => Ascii.eqb c "#") t in (Some q, f)
        | _ => (None, r2)
        end in
      let fragment := match r3 with String "#" f => Some f | _ => None end in
      if String.eqb scheme EmptyString || String.eqb auth EmptyString then None
      else Some (mk_url (lower scheme) (lower auth) path query fragment)
  | _ => None
  end.

End Basic.

(** ** The facade of [supa/client.py] that builds the storage client *)

(** [c in s] for a character. *)
Fixpoint has_char (c : ascii) (s : string) : bool :=
  match s with
  | EmptyString => false
  | String c' t => Ascii.eqb c c' || has_char c t
  end.

(** [old in s] for a string. *)
Fixpoint occurs (old s : string) : bool :=
  String.prefix old s ||
  match s with
  | EmptyString => false
  | String _ t => occurs old t
  end.

(** [s.replace(old, new)] for a non-empty [old]: left to right, without
    overlaps; [fuel] bounds the number of characters consumed. *)
Fixpoint replace_from (fuel : nat) (old new s : string) : string :=
  match fuel with
  | O => s
  | S f =>
      match s with
      | EmptyString => EmptyString
      | String c t =>
          if String.prefix old s
          then new ++ replace_from f old new
                        (substring (String.length old)
                           (String.length s - String.length old) s)
          else String c (replace_from f old new t)
      end
  end.

Definition str_replace (s old new : string) : string :=
  replace_from (S (String.length s)) old new s.

(** The URLs set by [Supa.__init__] (the database client manager it also
    builds is a [pgrest] client, outside this module). *)
Record Supa := mk_Supa {
  supa_url : string;
  supa_key : string;
  supa_rest_url : string;
  supa_realtime_url : string;
  supa_auth_url : string;
  supa_storage_url : string
}.

Definition Supa_init (supabase_url supabase_key : string) : Supa :=
  mk_Supa supabase_url supabase_key
    (supabase_url ++ "/rest/v1")
    (str_replace (supabase_url ++ "/realtime/v1") "http" "ws")
    (supabase_url ++ "/auth/v1")
    (supabase_url ++ "/storage/v1").

(** [Supa._get_headers] *)
Definition _get_headers (self : Supa) (key : option string) : dict :=
  [("apiKey", PStr (supa_key self));
   ("Authorization", PStr ("Bearer " ++ py_or key (supa_key self)))].

(** [Supa.storage] *)
Definition Supa_storage (httpx_urlparse : string -> option httpx_url)
  (accept_encoding user_agent : string) (self : Supa) (access_token : option string)
  : result StorageClient :=
  StorageClient_init httpx_urlparse accept_encoding user_agent
    (supa_storage_url self) (_get_headers self access_token).

(** The operations whose result is [r.json()] as it is. *)
Definition returns_json (o : op) : bool :=
  match o with
  | OpEmptyBucket _ _ | OpDeleteBucket _ _ | OpDelete _ | OpEmpty _
  | OpMove _ _ _ | OpCopy _ _ _ | OpRemove _ _ | OpUpload _ _ _ _ _ _ => true
  | _ => false
  end.

(** ** What the spec describes for [Bucket.list]'s body *)

(** The spec's defaults: [{prefix: path or "", limit: 100, offset: 0,
    sortBy: {column: "name", order: "asc"}}]. *)
Definition list_defaults (path : option string) : dict :=
  [("prefix", PStr (py_or path "")); ("limit", PInt 100); ("offset", PInt 0);
   ("sortBy", PDict [("column", PStr "name"); ("order", PStr "asc")])].

(** ** Example inputs *)

Definition ex_now : datetime := mk_datetime 2021 6 1 12 0 0.

(** The storage client of [Supa("https://project.supabase.co", "anon-key")]. *)
Definition ex_client : StorageClient :=
  mk_StorageClient "https://project.supabase.co/storage/v1"
    (mk_session "https://project.supabase.co/storage/v1/"
       (httpx_default_headers "gzip, deflate" "python-httpx/0.23.0" ++
        [("apiKey", PStr "anon-key"); ("Authorization", PStr "Bearer anon-key")])%list).

Definition ex_bucket : Bucket :=
  mk_Bucket (PStr "avatars-id") (PStr "avatars") (PStr "u1") (PBool false)
    (PDateTime ex_now) (PDateTime ex_now) (sc_client ex_client).

Definition ex_error : pyval := PDict [("error", PStr "Not found")].

(** A service that answers 404 with a JSON error body. *)
Definition ex_not_found (q : request) : response :=
  mk_response 404 (Basic.json_dumps ex_error).

(** A service that answers 502 with an HTML page. *)
Definition ex_bad_gateway (q : request) : response :=
  mk_response 502 "<html>Bad Gateway</html>".

(** A service that acknowledges every request. *)
Definition ex_ack (q : request) : response :=
  mk_response 200 (Basic.json_dumps (PDict [("message", PStr "Successfully created")])).

Definition ex_file_json (name : string) : pyval :=
  PDict [("name", PStr name); ("bucket_id", PStr "avatars-id"); ("owner", PStr "u1");
         ("id", PStr ("id-" ++ name)); ("created_at", PStr "2021-06-01T12:00:00");
         ("updated_at", PStr "2021-06-01T12:00:00");
         ("last_accessed_at", PStr "2021-06-01T12:00:00"); ("metadata", PDict [])].

(** A service that would report two of the requested paths as removed. *)
Definition ex_removed_two (q : request) : response :=
  mk_response 200 (Basic.json_dumps (PList [ex_file_json "a"; ex_file_json "b"])).

Definition ex_supa : Supa := Supa_init "https://project.supabase.co" "anon-key".

Definition ex_bucket_json (id : string) : pyval :=
  PDict [("id", PStr id); ("name", PStr id); ("owner", PStr "u1");
         ("public", PBool false); ("created_at", PStr "2021-06-01T12:00:00");
         ("updated_at", PStr "2021-06-02T08:30:00")].

(** A service that lists two buckets. *)
Definition ex_two_buckets (q : request) : response :=
  mk_response 200 (Basic.json_dumps (PList [ex_bucket_json "avatars"; ex_bucket_json "docs"])).

(** A service that returns one bucket. *)
Definition ex_one_bucket (q : request) : response :=
  mk_response 200 (Basic.json_dumps (ex_bucket_json "avatars")).

(** A service that describes a bucket with a field [Bucket] does not have. *)
Definition ex_bucket_with_limit (q : request) : response :=
  mk_response 200 (Basic.json_dumps
    (PDict [("id", PStr "avatars"); ("name", PStr "avatars"); ("owner", PStr "u1");
            ("public", PBool false); ("file_size_limit", PInt 1048576);
            ("created_at", PStr "2021-06-01T12:00:00");
            ("updated_at", PStr "2021-06-02T08:30:00")])).

(** A service that answers with an empty JSON array. *)
Definition ex_empty_array (q : request) : response :=
  mk_response 200 "[]".

(** A service that answers with raw, non-JSON bytes. *)
Definition ex_raw_bytes (q : request) : response :=
  mk_response 200 "PNG raw bytes".

(** A service that signs every URL. *)
Definition ex_signed (q : request) : response :=
  mk_response 200 (Basic.json_dumps
    (PDict [("signedURL", PStr "/object/sign/avatars/cat.png?token=t")])).

(** [ex_bucket] under another id. *)
Definition ex_bucket_other_id : Bucket :=
  mk_Bucket (PStr "other-id") (PStr "avatars") (PStr "u1") (PBool false)
    (PDateTime ex_now) (PDateTime ex_now) (sc_client ex_client).


(** * Properties *)

(** ** Dictionaries *)

Lemma dict_get_setitem (d : dict) (k k' : string) (v : pyval) :
  dict_get (dict_setitem d k v) k' = if String.eqb k' k then Some v else dict_get d k'.
Proof.
  induction d as [| [k0 v0] t IH]; simpl.
  - reflexivity.
  - destruct (String.eqb k k0) eqn:E1.
    + apply String.eqb_eq in E1; subst k0. simpl.
      destruct (String.eqb k' k); reflexivity.
    + simpl. rewrite IH.
      destruct (String.eqb k' k) eqn:E2, (String.eqb k' k0) eqn:E3; auto.
      apply String.eqb_eq in E2, E3. subst. rewrite String.eqb_refl in E1.
      discriminate.
Qed.

Lemma dict_get_absent (d : dict) (k : string) :
  existsb (String.eqb k) (map fst d) = false -> dict_get d k = None.
Proof.
  induction d as [| [k0 v0] t IH]; simpl; intros H.
  - reflexivity.
  - apply Bool.orb_false_iff in H as [H1 H2]. rewrite H1. auto.
Qed.

(** [dict_update] is the key-by-key override of [d] by [o]. *)
Lemma dict_get_update (d o : dict) (k : string) :
  nodup_keys o = true ->
  dict_get (dict_update d o) k =
  match dict_get o k with Some v => Some v | None => dict_get d k end.
Proof.
  unfold dict_update. revert d.
  induction o as [| [k0 v0] t IH]; intros d Hnd; simpl.
  - reflexivity.
  - simpl in Hnd. apply andb_true_iff in Hnd as [Hk Ht].
    apply negb_true_iff in Hk.
    rewrite (IH _ Ht), dict_get_setitem.
    destruct (String.eqb k k0) eqn:E.
    + apply String.eqb_eq in E; subst k0. rewrite (dict_get_absent _ _ Hk). reflexivity.
    + destruct (dict_get t k); reflexivity.
Qed.

(** ** Responses *)

Lemma client_call_same (q q' : request) :
  client_call q = Ok q' -> q' = q.
Proof.
  unfold client_call.
  destruct (_ || _); [| congruence].
  destruct (req_json q), (req_files q); congruence.
Qed.

Lemma sends_request_call (o : op) :
  sends_request o = true -> client_call (op_request o) = Ok (op_request o).
Proof.
  unfold sends_request. destruct (client_call (op_request o)) eqn:E; [| discriminate].
  intros _. pose proof (client_call_same _ _ E) as ->. reflexivity.
Qed.

Lemma send_handle_fail {A} json_loads service (q : request) (v : pyval)
  (k : response -> net A) :
  client_call q = Ok q ->
  is_success (service q) = false ->
  json_loads (content (service q)) = Some v ->
  (r <-- send service q;; r <-- lift (_handle_response json_loads r);; k r)
  = ([q], Err (StorageError v)).
Proof.
  intros Hc Hs Hj. unfold send, _handle_response, response_json.
  rewrite Hc. simpl. rewrite Hs, Hj. reflexivity.
Qed.

Lemma send_handle_undecodable {A} json_loads service (q : request)
  (k : response -> net A) :
  client_call q = Ok q ->
  is_success (service q) = false ->
  json_loads (content (service q)) = None ->
  (r <-- send service q;; r <-- lift (_handle_response json_loads r);; k r)
  = ([q], Err JSONDecodeError).
Proof.
  intros Hc Hs Hj. unfold send, _handle_response, response_json.
  rewrite Hc. simpl. rewrite Hs, Hj. reflexivity.
Qed.

Ltac unfold_ops :=
  unfold list_buckets, get_bucket, create_bucket, empty_bucket, delete_bucket,
    create_signed_url, Bucket_delete, Bucket_empty, move, copy, remove,
    bulk_remove, Bucket_list, download, upload, _delete_bucket, _empty_bucket,
    _download_content.

(** C1: every network operation of [StorageClient] and [Bucket] whose
    session call is accepted (all but [bulk_remove], see [client_call])
    sends one request; a non-2xx reply whose body decodes to [v] makes the
    operation raise [StorageError v], through [_handle_response], with no
    second request; [_handle_response] returns a 2xx response unchanged. *)
Theorem non_2xx_raises_storage_error json_loads fromisoformat now service
  (o : op) (v : pyval)
  (Hreq : sends_request o = true)
  (Hst : is_success (service (op_request o)) = false)
  (Hjs : json_loads (content (service (op_request o))) = Some v) :
  run_op json_loads fromisoformat now service o = ([op_request o], Err (StorageError v))
  /\ (forall r, is_success r = true -> _handle_response json_loads r = Ok r).
Proof.
  pose proof (sends_request_call o Hreq) as Hc.
  split.
  - destruct o; cbn [run_op op_request] in *; unfold_ops;
      rewrite (send_handle_fail _ _ _ v _ Hc Hst Hjs); reflexivity.
  - intros r Hr. unfold _handle_response. rewrite Hr. reflexivity.
Qed.

(** C10: a non-2xx reply whose body is not JSON makes every operation
    whose request is sent fail with the decoding error of [r.json()], not a
    [StorageError]. *)
Theorem non_2xx_undecodable_raises_decode_error json_loads fromisoformat now service
  (o : op)
  (Hreq : sends_request o = true)
  (Hst : is_success (service (op_request o)) = false)
  (Hjs : json_loads (content (service (op_request o))) = None) :
  run_op json_loads fromisoformat now service o = ([op_request o], Err JSONDecodeError).
Proof.
  pose proof (sends_request_call o Hreq) as Hc.
  destruct o; cbn [run_op op_request] in *; unfold_ops;
    rewrite (send_handle_undecodable _ _ _ _ Hc Hst Hjs); reflexivity.
Qed.

(** C2: [move] and [copy] send the same request, a POST to [/object/move]
    with body [{bucketId, sourceKey, destinationKey}], and behave alike. *)
Theorem move_copy_identical (self : Bucket) (x y : string) :
  move_request self x y =
    mk_request (b_client self) "POST" "/object/move"
      (Some (PDict [("bucketId", b_id self); ("sourceKey", PStr x);
                    ("destinationKey", PStr y)])) None None
  /\ copy_request self x y = move_request self x y
  /\ (forall json_loads service,
        copy json_loads service self x y = move json_loads service self x y).
Proof.
  split; [reflexivity | split; [reflexivity | intros; reflexivity]].
Qed.

(** ** Uploads *)

Lemma upload_headers_contentType (c : session) (cc : Z) (mt : string) (u : bool) :
  dict_get (upload_headers c cc mt u) "contentType" = Some (PStr mt).
Proof.
  unfold upload_headers, dict_update. cbn [fold_left fst snd].
  rewrite !dict_get_setitem. reflexivity.
Qed.

(** C3: [upload] sends a multipart POST to [/object/{name}/{path}] whose
    file part is named after the last segment of [path] and typed
    [mime_type]; the request carries no header of its own, so
    [cache_control] and [upsert] never reach the service. *)
Theorem upload_request_shape (self : Bucket) (path file : string) (cache_control : Z)
  (mime_type : string) (upsert : bool) :
  upload_request self path file cache_control mime_type upsert =
    mk_request (b_client self) "POST" ("/object/" ++ py_str (b_name self) ++ "/" ++ path)
      None None
      (Some [("file", mk_part (py_last (rsplit_once "/"%char path)) file (PStr mime_type))])
  /\ upload_request self path file cache_control mime_type upsert
     = upload_request self path file 3600 mime_type false.
Proof.
  unfold upload_request. rewrite !upload_headers_contentType. split; reflexivity.
Qed.

(** ** Records and timestamps *)

(** C4: a [File] whose timestamps parse is refused by its own
    [__post_init__], which assigns to a frozen dataclass; a [Bucket]
    built from parsable strings holds the parsed [datetime]s. *)
Theorem file_timestamp_assignment_refused fromisoformat
  (n bi ow i : pyval) (t1 t2 : string) (last m : pyval) (d1 d2 : datetime)
  (id name owner public : pyval) (c : session)
  (H1 : fromisoformat t1 = Some d1) (H2 : fromisoformat t2 = Some d2) :
  File_new fromisoformat n bi ow i (PStr t1) (PStr t2) last m
    = Err (FrozenInstanceError "created_at")
  /\ Bucket_new fromisoformat id name owner public (PStr t1) (PStr t2) c
    = Ok (mk_Bucket id name owner public (PDateTime d1) (PDateTime d2) c).
Proof.
  unfold File_new, File_post_init, Bucket_new, Bucket_post_init; cbn.
  rewrite H1; cbn. rewrite H2. split; reflexivity.
Qed.

(** C5: once the service acknowledges the creation, [create_bucket]
    raises [TypeError]: it passes the [datetime] [now] to [Bucket],
    whose [__post_init__] calls [datetime.fromisoformat] on it. *)
Theorem create_bucket_raises_type_error json_loads fromisoformat now service
  (sc : StorageClient) (id : string) (name : option string) (public : bool)
  (Hok : is_success (service (create_bucket_request sc id name public)) = true) :
  create_bucket json_loads fromisoformat now service sc id name public
  = ([create_bucket_request sc id name public],
     Err (TypeError "fromisoformat: argument must be str")).
Proof.
  unfold create_bucket, send, _handle_response. cbn. rewrite Hok. reflexivity.
Qed.

(** ** Listing *)

(** C6: the body [Bucket.list] sends is the spec's defaults overridden
    key by key by [options]; [list(None, {})] sends the defaults and
    [list(options={"limit": 10})] changes [limit] alone. *)
Theorem list_body_shallow_merge (self : Bucket) (path : option string) (options : dict)
  (Hkeys : nodup_keys options = true) :
  req_json (list_request self path options) = Some (PDict (list_body path options))
  /\ (forall k, dict_get (list_body path options) k =
        match dict_get options k with
        | Some v => Some v
        | None => dict_get (list_defaults path) k
        end)
  /\ list_body None [] = list_defaults None
  /\ list_body None [("limit", PInt 10)]
     = dict_setitem (list_defaults None) "limit" (PInt 10).
Proof.
  split; [reflexivity |].
  split; [| split; reflexivity].
  intros k. unfold list_body. rewrite (dict_get_update _ _ _ Hkeys).
  destruct (dict_get options k); [reflexivity |].
  unfold dict_update, DEFAULT_SEARCH_OPTIONS. cbn [fold_left fst snd].
  rewrite !dict_get_setitem. unfold list_defaults. cbn [dict_get].
  repeat match goal with
         | |- context [String.eqb k ?s] =>
             destruct (String.eqb_spec k s); [subst k; reflexivity |]
         end.
  reflexivity.
Qed.

(** ** Files *)

Lemma File_post_init_fails fromisoformat (self : File) :
  exists e, File_post_init fromisoformat self = Err e.
Proof.
  unfold File_post_init, dataclass_setattr, File_frozen.
  destruct (fromisoformat_py fromisoformat (f_created_at self)); cbn; eauto.
Qed.

Lemma File_from_kwargs_fails fromisoformat (i : pyval) :
  exists e, File_from_kwargs fromisoformat i = Err e.
Proof.
  unfold File_from_kwargs.
  destruct i; eauto.
  destruct (kwargs_bind File_fields kvs) as [l |]; eauto.
  do 8 (destruct l as [| ? l]; eauto).
  destruct l; eauto.
  apply File_post_init_fails.
Qed.

Lemma rmap_File_from_kwargs_ok fromisoformat (xs : list pyval) (fs : list File) :
  rmap (File_from_kwargs fromisoformat) xs = Ok fs -> fs = [].
Proof.
  destruct xs as [| x t]; cbn.
  - intros H; injection H; auto.
  - destruct (File_from_kwargs_fails fromisoformat x) as [e He]. rewrite He.
    discriminate.
Qed.

Lemma files_result_nil json_loads fromisoformat (k : response) :
  match snd (r <-- lift (_handle_response json_loads k);;
             lift (j <- response_json json_loads r;; items <- py_iter j;;
                   rmap (File_from_kwargs fromisoformat) items)) with
  | Ok fs => fs = []
  | Err _ => True
  end.
Proof.
  unfold nbind, lift.
  destruct (_handle_response json_loads k) as [r |]; cbn; auto.
  destruct (response_json json_loads r) as [j |]; cbn; auto.
  destruct (py_iter j) as [items |]; cbn; auto.
  destruct (rmap (File_from_kwargs fromisoformat) items) eqn:E; auto.
  eapply rmap_File_from_kwargs_ok; eauto.
Qed.

(** C7: [bulk_remove] passes [json=] to [AsyncClient.delete], which does
    not take it: for every list of paths and every service, the call raises
    [TypeError] without sending a request, so no reply is ever turned into
    [File] records. The comprehension [[File( **i) for i in r.json()]] that
    would follow fails anyway on every non-empty array. *)
Theorem bulk_remove_reported_subset json_loads fromisoformat service
  (self : Bucket) (paths : list string) :
  bulk_remove json_loads fromisoformat service self paths
  = ([], Err (TypeError "AsyncClient.delete() got an unexpected keyword argument 'json'"))
  /\ (forall items, items <> [] ->
        exists e, rmap (File_from_kwargs fromisoformat) items = Err e).
Proof.
  split; [reflexivity |].
  intros [| x t] Hne; [congruence |].
  destruct (File_from_kwargs_fails fromisoformat x) as [e He].
  exists e. cbn. rewrite He. reflexivity.
Qed.

(** C9: constructing a [File] fails for every input, so [Bucket.list] and
    [Bucket.bulk_remove] only ever return an empty list ([bulk_remove]
    even fails earlier, in its [delete] call). *)
Theorem file_construction_always_fails fromisoformat :
  (forall a b c d e f g h, exists err, File_new fromisoformat a b c d e f g h = Err err)
  /\ (forall i, exists err, File_from_kwargs fromisoformat i = Err err)
  /\ (forall json_loads service self path options,
        match snd (Bucket_list json_loads fromisoformat service self path options) with
        | Ok fs => fs = []
        | Err _ => True
        end)
  /\ (forall json_loads service self paths,
        match snd (bulk_remove json_loads fromisoformat service self paths) with
        | Ok fs => fs = []
        | Err _ => True
        end).
Proof.
  split; [intros; apply File_post_init_fails |].
  split; [apply File_from_kwargs_fails |].
  split; intros.
  - unfold Bucket_list, send.
    replace (client_call (list_request self path options))
      with (Ok (list_request self path options)) by reflexivity.
    cbn [nbind].
    pose proof (files_result_nil json_loads fromisoformat
                  (service (list_request self path options))) as H.
    destruct (r <-- lift (_handle_response json_loads _);; _) as [l res]; exact H.
  - (* the call is refused before [File( **i)] is reached *)
    exact I.
Qed.

(** ** Public URLs *)

(** C8: [get_public_url] is the session's base URL, [/object/public/]
    and the path, put together without any request. *)
Theorem get_public_url_concat (self : Bucket) (path : string) :
  get_public_url self path = base_url (b_client self) ++ "/object/public/" ++ path.
Proof. reflexivity. Qed.

(** ** The theorems at concrete inputs *)

Lemma non_2xx_raises_storage_error_witness :
  run_op Basic.json_loads Basic.fromisoformat ex_now ex_not_found
    (OpGetBucket ex_client "avatars")
  = ([op_request (OpGetBucket ex_client "avatars")], Err (StorageError ex_error))
  /\ (forall r, is_success r = true -> _handle_response Basic.json_loads r = Ok r).
Proof.
  apply (non_2xx_raises_storage_error Basic.json_loads Basic.fromisoformat ex_now
           ex_not_found (OpGetBucket ex_client "avatars") ex_error);
    vm_compute; reflexivity.
Defined.

Lemma non_2xx_undecodable_raises_decode_error_witness :
  run_op Basic.json_loads Basic.fromisoformat ex_now ex_bad_gateway
    (OpList ex_bucket None [])
  = ([op_request (OpList ex_bucket None [])], Err JSONDecodeError).
Proof.
  apply (non_2xx_undecodable_raises_decode_error Basic.json_loads Basic.fromisoformat
           ex_now ex_bad_gateway (OpList ex_bucket None []));
    vm_compute; reflexivity.
Defined.

Lemma bulk_remove_reported_subset_witness :
  bulk_remove Basic.json_loads Basic.fromisoformat ex_removed_two ex_bucket ["a"; "b"; "c"]
  = ([], Err (TypeError "AsyncClient.delete() got an unexpected keyword argument 'json'"))
  /\ (forall items, items <> [] ->
        exists e, rmap (File_from_kwargs Basic.fromisoformat) items = Err e).
Proof.
  apply (bulk_remove_reported_subset Basic.json_loads Basic.fromisoformat ex_removed_two
           ex_bucket ["a"; "b"; "c"]).
Defined.

Lemma file_timestamp_assignment_refused_witness :
  File_new Basic.fromisoformat (PStr "cat.png") (PStr "avatars-id") (PStr "u1")
    (PStr "f1") (PStr "2021-06-01T12:00:00") (PStr "2021-06-02")
    (PStr "2021-06-03") (PDict [])
    = Err (FrozenInstanceError "created_at")
  /\ Bucket_new Basic.fromisoformat (PStr "avatars-id") (PStr "avatars") PNone
       (PBool true) (PStr "2021-06-01T12:00:00") (PStr "2021-06-02")
       (sc_client ex_client)
    = Ok (mk_Bucket (PStr "avatars-id") (PStr "avatars") PNone (PBool true)
            (PDateTime (mk_datetime 2021 6 1 12 0 0))
            (PDateTime (mk_datetime 2021 6 2 0 0 0)) (sc_client ex_client)).
Proof.
  apply (file_timestamp_assignment_refused Basic.fromisoformat
           (PStr "cat.png") (PStr "avatars-id") (PStr "u1") (PStr "f1")
           "2021-06-01T12:00:00" "2021-06-02" (PStr "2021-06-03") (PDict [])
           (mk_datetime 2021 6 1 12 0 0) (mk_datetime 2021 6 2 0 0 0));
    vm_compute; reflexivity.
Defined.

Lemma create_bucket_raises_type_error_witness :
  create_bucket Basic.json_loads Basic.fromisoformat ex_now ex_ack ex_client "photos"
    None false
  = ([create_bucket_request ex_client "photos" None false],
     Err (TypeError "fromisoformat: argument must be str")).
Proof.
  apply (create_bucket_raises_type_error Basic.json_loads Basic.fromisoformat ex_now
           ex_ack ex_client "photos" None false).
  vm_compute. reflexivity.
Defined.

Lemma list_body_shallow_merge_witness :
  let options := [("limit", PInt 10);
                  ("sortBy", PDict [("column", PStr "updated_at"); ("order", PStr "desc")])] in
  req_json (list_request ex_bucket (Some "folder") options)
    = Some (PDict (list_body (Some "folder") options))
  /\ (forall k, dict_get (list_body (Some "folder") options) k =
        match dict_get options k with
        | Some v => Some v
        | None => dict_get (list_defaults (Some "folder")) k
        end)
  /\ list_body None [] = list_defaults None
  /\ list_body None [("limit", PInt 10)]
     = dict_setitem (list_defaults None) "limit" (PInt 10).
Proof.
  intros options.
  apply (list_body_shallow_merge ex_bucket (Some "folder") options).
  vm_compute. reflexivity.
Defined.

(** * Further properties of the module *)

(** ** Strings *)

Lemma string_length_app (a b : string) :
  String.length (a ++ b) = (String.length a + String.length b)%nat.
Proof. induction a; simpl; auto. Qed.

Lemma string_app_assoc (a b c : string) : (a ++ b) ++ c = a ++ (b ++ c).
Proof. induction a; simpl; congruence. Qed.

Lemma string_app_empty_r (a : string) : a ++ EmptyString = a.
Proof. induction a as [| c a IH]; [reflexivity | simpl; rewrite IH; reflexivity]. Qed.

Lemma substring_whole (s : string) : substring 0 (String.length s) s = s.
Proof. induction s; simpl; congruence. Qed.

Lemma substring_app_right (a b : string) (k m : nat) :
  substring (String.length a + k) m (a ++ b) = substring k m b.
Proof. induction a; simpl; auto. Qed.

Lemma replace_from_absent (f : nat) (old new s : string) :
  occurs old s = false -> replace_from f old new s = s.
Proof.
  revert s. induction f as [| f IH]; intros s H; [reflexivity |].
  destruct s as [| c t]; [reflexivity |].
  simpl in H. apply Bool.orb_false_iff in H as [Hp Ht].
  simpl. rewrite Hp. rewrite (IH t Ht). reflexivity.
Qed.

Lemma replace_from_http (f : nat) (new x : string) :
  replace_from (S f) "http" new ("http" ++ x) = new ++ replace_from f "http" new x.
Proof.
  change ("http" ++ x) with (String "h" (String "t" (String "t" (String "p" x)))).
  cbn [replace_from].
  assert (Hp : String.prefix "http" (String "h" (String "t" (String "t" (String "p" x))))
               = true) by (simpl; destruct x; reflexivity).
  rewrite Hp.
  change (String.length (String "h" (String "t" (String "t" (String "p" x))))
          - String.length "http")%nat
    with (String.length x - 0)%nat.
  rewrite Nat.sub_0_r.
  change (substring (String.length "http") (String.length x)
            (String "h" (String "t" (String "t" (String "p" x)))))
    with (substring 0 (String.length x) x).
  rewrite substring_whole. reflexivity.
Qed.

Lemma rfind_shift (c : ascii) (s : string) (i : nat) (last : option nat) :
  rfind_from c s i last =
  match rfind_from c s 0 None with None => last | Some j => Some (i + j)%nat end.
Proof.
  revert i last. induction s as [| c' t IH]; intros i last; simpl; [reflexivity |].
  rewrite (IH (S i)), (IH 1%nat).
  destruct (rfind_from c t 0 None); [f_equal; lia |].
  destruct (Ascii.eqb c c'); simpl; [f_equal; lia | reflexivity].
Qed.

(** [rsplit(sep, maxsplit=1)]: either no [sep] at all, or the text after
    the last [sep]. *)
Lemma rsplit_once_spec (sep : ascii) (s : string) :
  (has_char sep s = false /\ rsplit_once sep s = [s])
  \/ (exists a b, rsplit_once sep s = [a; b] /\ s = a ++ String sep b
                  /\ has_char sep b = false).
Proof.
  induction s as [| c t IH]; [left; split; reflexivity |].
  unfold rsplit_once in *. cbn [rfind_from]. rewrite rfind_shift.
  destruct (rfind_from sep t 0 None) as [j |] eqn:Ej.
  - destruct IH as [[_ Hr] | [a [b [Hr [Ht Hb]]]]]; [discriminate |].
    injection Hr as Ha Hb'. right. exists (String c a), b.
    split; [| split; [simpl; congruence | exact Hb]].
    subst a b. simpl. reflexivity.
  - destruct IH as [[Hn _] | [a [b [Hr _]]]]; [| discriminate].
    destruct (Ascii.eqb sep c) eqn:E.
    + apply Ascii.eqb_eq in E; subst c. right. exists "", t.
      split; [| split; [reflexivity | exact Hn]].
      simpl. rewrite Nat.sub_0_r, substring_whole. reflexivity.
    + left. split; [simpl; rewrite E, Hn; reflexivity | reflexivity].
Qed.

(** ** The facade *)

Ltac nonempty :=
  let H := fresh in
  intro H; apply (f_equal String.length) in H;
  rewrite ?string_length_app in H; simpl in H; lia.

Lemma ends_with_slash_app (a b : string) :
  b <> EmptyString -> ends_with_slash (a ++ b) = ends_with_slash b.
Proof.
  intros Hb. induction a as [| c a IH]; [reflexivity |].
  simpl. rewrite <- IH.
  destruct (a ++ b) eqn:E; [| reflexivity].
  destruct a; destruct b; simpl in E; congruence.
Qed.

Lemma ends_with_slash_spec (s : string) :
  ends_with_slash s = true -> exists pre, s = pre ++ "/".
Proof.
  induction s as [| c t IH]; [discriminate |].
  destruct t as [| c' t'].
  - simpl. intros H. apply Ascii.eqb_eq in H. subst c. exists EmptyString. reflexivity.
  - intros H. destruct (IH H) as [pre Hpre]. exists (String c pre).
    rewrite Hpre. reflexivity.
Qed.

Lemma span_until_app (stop : ascii -> bool) (s a r : string) :
  span_until stop s = (a, r) -> s = a ++ r.
Proof.
  revert a r. induction s as [| c t IH]; intros a r H; simpl in H.
  - injection H as <- <-. reflexivity.
  - destruct (stop c).
    + injection H as <- <-. reflexivity.
    + destruct (span_until stop t) as [a' r'] eqn:E.
      injection H as <- <-. simpl. f_equal. exact (IH a' r' eq_refl).
Qed.

Lemma span_until_stop (stop : ascii -> bool) (s a : string) (c : ascii) (t : string) :
  span_until stop s = (a, String c t) -> stop c = true.
Proof.
  revert a. induction s as [| c0 s IH]; intros a H; simpl in H.
  - discriminate.
  - destruct (stop c0) eqn:Hc.
    + injection H as _ <- _. exact Hc.
    + destruct (span_until stop s) as [a' r'] eqn:E.
      injection H as _ ->. exact (IH a' eq_refl).
Qed.

Lemma raw_path_mk (sc a p : string) (q f : option string) :
  raw_path (mk_url sc a p q f)
  = (if String.eqb p "" then "/" else p) ++
    match q with Some q => "?" ++ q | None => "" end.
Proof. reflexivity. Qed.

(** httpx's base URL always has a raw path ending in ["/"]. *)
Lemma enforce_raw_path_slash (u : httpx_url) :
  ends_with_slash (raw_path (_enforce_trailing_slash u)) = true.
Proof.
  unfold _enforce_trailing_slash.
  destruct (ends_with_slash (raw_path u)) eqn:E; [exact E |].
  assert (Hs : ends_with_slash (raw_path u ++ "/") = true)
    by (rewrite ends_with_slash_app by discriminate; reflexivity).
  unfold partition_query.
  destruct (span_until _ (raw_path u ++ "/")) as [p r] eqn:Hsp.
  pose proof (span_until_app _ _ _ _ Hsp) as Happ.
  destruct r as [| c q].
  - rewrite string_app_empty_r in Happ. subst p. rewrite raw_path_mk, string_app_empty_r.
    destruct (String.eqb (raw_path u ++ "/") "") eqn:E0.
    + apply String.eqb_eq in E0. rewrite E0 in Hs. discriminate.
    + exact Hs.
  - pose proof (span_until_stop _ _ _ _ _ Hsp) as Hc. apply Ascii.eqb_eq in Hc. subst c.
    rewrite raw_path_mk.
    rewrite Happ, ends_with_slash_app in Hs by discriminate.
    rewrite ends_with_slash_app by discriminate.
    destruct q as [| c' q']; [discriminate | exact Hs].
Qed.

Lemma enforce_nonempty (u : httpx_url) :
  (url_path u <> EmptyString \/ url_query u <> None) ->
  url_path (_enforce_trailing_slash u) <> EmptyString
  \/ url_query (_enforce_trailing_slash u) <> None.
Proof.
  intros Hu. unfold _enforce_trailing_slash.
  destruct (ends_with_slash (raw_path u)); [exact Hu |].
  unfold partition_query.
  destruct (span_until _ (raw_path u ++ "/")) as [p r] eqn:Hsp.
  pose proof (span_until_app _ _ _ _ Hsp) as Happ.
  destruct r as [| c q]; simpl; [left | right; discriminate].
  intros ->. simpl in Happ. destruct (raw_path u); discriminate.
Qed.

Lemma url_str_ends (v : httpx_url) :
  url_fragment v = None ->
  (url_path v <> EmptyString \/ url_query v <> None) ->
  ends_with_slash (url_str v) = ends_with_slash (raw_path v).
Proof.
  intros Hf Hv. unfold url_str, raw_path. rewrite Hf, string_app_empty_r.
  generalize (if String.eqb (url_scheme v) "" then "" else url_scheme v ++ ":") as A.
  generalize (if String.eqb (url_authority v) "" then "" else "//" ++ url_authority v) as B.
  intros B A.
  destruct (url_path v) as [| c p] eqn:Ep.
  - destruct (url_query v) as [q |]; [| destruct Hv; congruence].
    rewrite (ends_with_slash_app A), (ends_with_slash_app B) by nonempty.
    reflexivity.
  - rewrite (ends_with_slash_app A), (ends_with_slash_app B) by nonempty.
    reflexivity.
Qed.

Lemma Supa_storage_result urlparse ae ua (url key : string) (token : option string) :
  Supa_storage urlparse ae ua (Supa_init url key) token
  = match urlparse (url ++ "/storage/v1") with
    | Some u =>
        Ok (mk_StorageClient (url ++ "/storage/v1")
              (mk_session (url_str (_enforce_trailing_slash u))
                 (httpx_default_headers ae ua ++
                  [("apiKey", PStr key);
                   ("Authorization", PStr ("Bearer " ++ py_or token key))])%list))
    | None => Err (InvalidURL (url ++ "/storage/v1"))
    end.
Proof.
  unfold Supa_storage, StorageClient_init, AsyncClient_init, _get_headers. simpl.
  destruct (urlparse (url ++ "/storage/v1")); reflexivity.
Qed.

(** [Supa.__init__]: for a URL whose only ["http"] is its scheme, the
    realtime URL is the same URL with [ws] in place of [http] ([https]
    becomes [wss]) followed by [/realtime/v1]. *)
Theorem realtime_url_scheme (r key : string)
  (Hr : occurs "http" (r ++ "/realtime/v1") = false) :
  supa_realtime_url (Supa_init ("http" ++ r) key) = "ws" ++ r ++ "/realtime/v1".
Proof.
  change (supa_realtime_url (Supa_init ("http" ++ r) key))
    with (str_replace (("http" ++ r) ++ "/realtime/v1") "http" "ws").
  unfold str_replace. rewrite string_app_assoc, replace_from_http.
  rewrite replace_from_absent by exact Hr. reflexivity.
Qed.



(** ** Composition of the request and the reply *)

Lemma fst_nbind_send {A} service (q : request) (k : response -> net A) :
  client_call q = Ok q -> fst (nbind (send service q) k) = q :: fst (k (service q)).
Proof. intros Hc. unfold nbind, send. rewrite Hc. destruct (k (service q)). reflexivity. Qed.

Lemma fst_nbind_lift_nil {A B} (r : result A) (k : A -> net B) :
  (forall a, fst (k a) = []) -> fst (nbind (lift r) k) = [].
Proof.
  intros Hk. destruct r as [a | e]; [| reflexivity].
  specialize (Hk a). simpl. destruct (k a). simpl in *. exact Hk.
Qed.

Lemma fst_nbind_nret {A B} (m : net A) (g : A -> B) :
  fst (nbind m (fun a => nret (g a))) = fst m.
Proof. destruct m as [l [a | e]]; simpl; [apply app_nil_r | reflexivity]. Qed.

(** Every operation but [bulk_remove] sends exactly one request,
    [op_request o], whatever the service answers: nothing is retried and no
    second call is made. [bulk_remove] is the one operation whose call the
    session refuses, and it sends nothing. *)
Theorem every_op_sends_one_request json_loads fromisoformat now service (o : op) :
  fst (run_op json_loads fromisoformat now service o)
  = (if sends_request o then [op_request o] else [])
  /\ (sends_request o = false <-> exists b paths, o = OpBulkRemove b paths).
Proof.
  split.
  - destruct o;
      lazymatch goal with
      | |- context [sends_request ?o] =>
          let c := eval cbv in (sends_request o) in change (sends_request o) with c
      end; cbv iota;
      cbn [run_op op_request]; rewrite fst_nbind_nret; unfold_ops;
      try reflexivity;
      rewrite fst_nbind_send, fst_nbind_lift_nil by reflexivity; try reflexivity;
      intros a; destruct a; reflexivity.
  - split.
    + destruct o; try discriminate. intros _. eauto.
    + intros (b & paths & ->). reflexivity.
Qed.

(** ** Buckets built from the service's replies *)

Lemma Bucket_post_init_client fromisoformat (self b : Bucket) :
  Bucket_post_init fromisoformat self = Ok b -> b_client b = b_client self.
Proof.
  unfold Bucket_post_init, dataclass_setattr, Bucket_frozen.
  destruct (fromisoformat_py fromisoformat (b_created_at self)); cbn; [| discriminate].
  destruct (fromisoformat_py fromisoformat _); cbn; [| discriminate].
  intros H; injection H as <-. reflexivity.
Qed.

Lemma Bucket_from_kwargs_client fromisoformat (c : session) (i : pyval) (b : Bucket) :
  Bucket_from_kwargs fromisoformat c i = Ok b -> b_client b = c.
Proof.
  unfold Bucket_from_kwargs.
  destruct i; try discriminate.
  destruct (kwargs_bind Bucket_fields kvs) as [l |]; [| discriminate].
  do 6 (destruct l as [| ? l]; [discriminate |]).
  destruct l; [| discriminate].
  intros H. apply Bucket_post_init_client in H. exact H.
Qed.

Lemma rmap_Forall {A B} (f : A -> result B) (P : B -> Prop) (xs : list A) (ys : list B) :
  (forall x y, f x = Ok y -> P y) -> rmap f xs = Ok ys -> Forall P ys.
Proof.
  intros Hf. revert ys. induction xs as [| x t IH]; intros ys; cbn.
  - intros H; injection H as <-. constructor.
  - destruct (f x) as [y |] eqn:Ex; [| discriminate]. cbn.
    destruct (rmap f t) as [zs |]; [| discriminate]. cbn.
    intros H; injection H as <-. constructor; [eapply Hf; eauto | apply IH; reflexivity].
Qed.

(** [StorageClient.list_buckets]: every [Bucket] it returns is bound to
    the client's own session, the one all later bucket operations use. *)
Theorem list_buckets_share_session json_loads fromisoformat service
  (sc : StorageClient) (bs : list Bucket)
  (H : snd (list_buckets json_loads fromisoformat service sc) = Ok bs) :
  Forall (fun b => b_client b = sc_client sc) bs.
Proof.
  unfold list_buckets, send, nbind, lift in H. simpl in H.
  destruct (_handle_response json_loads (service (list_buckets_request sc))) as [r |];
    [| discriminate]. simpl in H.
  destruct (response_json json_loads r) as [data |]; [| discriminate]. simpl in H.
  destruct (py_iter data) as [items |]; [| discriminate]. simpl in H.
  eapply rmap_Forall; [| exact H].
  intros x y Hx. eapply Bucket_from_kwargs_client; eauto.
Qed.

(** [StorageClient.get_bucket] on a 2xx reply whose JSON object has
    exactly the fields of [Bucket] with parsable timestamps: the bucket,
    timestamps parsed, bound to the client's session. *)
Theorem get_bucket_parses json_loads fromisoformat service (sc : StorageClient)
  (id : string) (kvs : dict) (i n o p : pyval) (t1 t2 : string) (d1 d2 : datetime)
  (Hs : is_success (service (get_bucket_request sc id)) = true)
  (Hj : json_loads (content (service (get_bucket_request sc id))) = Some (PDict kvs))
  (Hk : kwargs_bind Bucket_fields kvs = Some [i; n; o; p; PStr t1; PStr t2])
  (H1 : fromisoformat t1 = Some d1) (H2 : fromisoformat t2 = Some d2) :
  get_bucket json_loads fromisoformat service sc id
  = ([get_bucket_request sc id],
     Ok (mk_Bucket i n o p (PDateTime d1) (PDateTime d2) (sc_client sc))).
Proof.
  unfold get_bucket, send, _handle_response, response_json. simpl.
  rewrite Hs. simpl. rewrite Hj. simpl.
  unfold Bucket_from_kwargs. rewrite Hk.
  unfold Bucket_new, Bucket_post_init. simpl. rewrite H1. simpl. rewrite H2.
  reflexivity.
Qed.

Lemma kwargs_bind_unknown (fields : list string) (kvs : dict) (k : string) (v : pyval) :
  In (k, v) kvs -> ~ In k fields -> kwargs_bind fields kvs = None.
Proof.
  intros Hin Hk. unfold kwargs_bind.
  destruct (forallb _ kvs) eqn:E; [| reflexivity].
  rewrite forallb_forall in E. specialize (E _ Hin). simpl in E.
  apply existsb_exists in E as [k' [Hk' Heq]]. apply String.eqb_eq in Heq. subst k'.
  contradiction.
Qed.

(** [StorageClient.get_bucket] on a 2xx reply whose JSON object has a
    key that is no field of [Bucket] raises [TypeError]. *)
Theorem get_bucket_unknown_field json_loads fromisoformat service (sc : StorageClient)
  (id : string) (kvs : dict) (k : string) (v : pyval)
  (Hs : is_success (service (get_bucket_request sc id)) = true)
  (Hj : json_loads (content (service (get_bucket_request sc id))) = Some (PDict kvs))
  (Hin : In (k, v) kvs) (Hk : ~ In k Bucket_fields) :
  get_bucket json_loads fromisoformat service sc id
  = ([get_bucket_request sc id],
     Err (TypeError "Bucket.__init__() got unexpected or missing arguments")).
Proof.
  unfold get_bucket, send, _handle_response, response_json. simpl.
  rewrite Hs. simpl. rewrite Hj. simpl.
  unfold Bucket_from_kwargs. rewrite (kwargs_bind_unknown _ _ _ _ Hin Hk).
  reflexivity.
Qed.

(** ** Empty listings, downloads and JSON results *)

(** [StorageClient.list_buckets] on a 2xx reply [[]] returns no bucket. *)
Theorem list_buckets_empty json_loads fromisoformat service (sc : StorageClient)
  (Hs : is_success (service (list_buckets_request sc)) = true)
  (Hj : json_loads (content (service (list_buckets_request sc))) = Some (PList [])) :
  list_buckets json_loads fromisoformat service sc = ([list_buckets_request sc], Ok []).
Proof.
  unfold list_buckets, send, _handle_response, response_json. simpl.
  rewrite Hs. simpl. rewrite Hj. reflexivity.
Qed.

(** [Bucket.list] on a 2xx reply [[]] (an empty folder) returns [[]],
    the one way it returns without error. *)
Theorem bucket_list_empty json_loads fromisoformat service (self : Bucket)
  (path : option string) (options : dict)
  (Hs : is_success (service (list_request self path options)) = true)
  (Hj : json_loads (content (service (list_request self path options))) = Some (PList [])) :
  Bucket_list json_loads fromisoformat service self path options
  = ([list_request self path options], Ok []).
Proof.
  unfold Bucket_list, send, _handle_response, response_json. simpl.
  rewrite Hs. simpl. rewrite Hj. reflexivity.
Qed.

(** [Bucket.download] on a 2xx reply returns the body as it is, never
    decoding it: it succeeds whether or not the body is JSON. *)
Theorem download_returns_raw_body json_loads service (self : Bucket) (path : string)
  (Hs : is_success (service (download_request (b_client self)
                               (py_str (b_name self) ++ "/" ++ path))) = true) :
  download json_loads service self path
  = ([download_request (b_client self) (py_str (b_name self) ++ "/" ++ path)],
     Ok (content (service (download_request (b_client self)
                             (py_str (b_name self) ++ "/" ++ path))))).
Proof.
  unfold download, _download_content, _handle_response, send.
  replace (client_call (download_request (b_client self) (py_str (b_name self) ++ "/" ++ path)))
    with (Ok (download_request (b_client self) (py_str (b_name self) ++ "/" ++ path)))
    by reflexivity.
  cbn [nbind lift]. rewrite Hs. reflexivity.
Qed.

(** The operations that return [r.json()] ([empty_bucket], [delete_bucket],
    [Bucket.delete], [empty], [move], [copy], [remove], [upload]), on a
    2xx reply, return the decoded body, or fail with the decoding error
    when it is not JSON. *)
Theorem json_ops_return_decoded_body json_loads fromisoformat now service (o : op)
  (Hr : returns_json o = true)
  (Hs : is_success (service (op_request o)) = true) :
  run_op json_loads fromisoformat now service o
  = ([op_request o],
     match json_loads (content (service (op_request o))) with
     | Some v => Ok (RValue v)
     | None => Err JSONDecodeError
     end).
Proof.
  destruct o; try discriminate; cbn [run_op op_request] in *; unfold_ops;
    unfold send, _handle_response, response_json; simpl; rewrite Hs; simpl;
    destruct (json_loads _); reflexivity.
Qed.

(** [Bucket.create_signed_url] on a 2xx reply whose body is a JSON
    object returns its [signedURL], or raises [KeyError] without one. *)
Theorem create_signed_url_result json_loads service (self : Bucket) (path : string)
  (expires_in : Z) (kvs : dict)
  (Hs : is_success (service (create_signed_url_request self path expires_in)) = true)
  (Hj : json_loads (content (service (create_signed_url_request self path expires_in)))
        = Some (PDict kvs)) :
  create_signed_url json_loads service self path expires_in
  = ([create_signed_url_request self path expires_in],
     match dict_get kvs "signedURL" with
     | Some u => Ok u
     | None => Err (KeyError "signedURL")
     end).
Proof.
  unfold create_signed_url, send, _handle_response, response_json. simpl.
  rewrite Hs. simpl. rewrite Hj. simpl.
  destruct (dict_get kvs "signedURL"); reflexivity.
Qed.

(** ** Routing *)

(** [Bucket.delete] and [Bucket.empty] are [StorageClient.delete_bucket]
    and [StorageClient.empty_bucket] on the bucket's id: same request,
    same result. *)
Theorem bucket_lifecycle_by_id json_loads service (self : Bucket) (sc : StorageClient)
  (id : string) (Hid : b_id self = PStr id) (Hc : b_client self = sc_client sc) :
  Bucket_delete json_loads service self = delete_bucket json_loads service sc id
  /\ Bucket_empty json_loads service self = empty_bucket json_loads service sc id.
Proof.
  unfold Bucket_delete, Bucket_empty, delete_bucket, empty_bucket.
  rewrite Hid, Hc. split; reflexivity.
Qed.

(** The object operations address a bucket by its name and session only:
    two buckets with the same name and session, whatever their ids, give
    the same requests for [remove], [download], [list], [upload],
    [bulk_remove] and [create_signed_url]. *)
Theorem object_requests_route_by_name (b b' : Bucket)
  (Hn : b_name b = b_name b') (Hc : b_client b = b_client b') :
  (forall path, remove_request b path = remove_request b' path)
  /\ (forall path, download_request (b_client b) (py_str (b_name b) ++ "/" ++ path)
                   = download_request (b_client b') (py_str (b_name b') ++ "/" ++ path))
  /\ (forall path options, list_request b path options = list_request b' path options)
  /\ (forall path file cc mt u,
        upload_request b path file cc mt u = upload_request b' path file cc mt u)
  /\ (forall paths, bulk_remove_request b paths = bulk_remove_request b' paths)
  /\ (forall path e, create_signed_url_request b path e
                     = create_signed_url_request b' path e).
Proof.
  unfold remove_request, list_request, upload_request, bulk_remove_request,
    create_signed_url_request.
  rewrite Hn, Hc. repeat split; reflexivity.
Qed.

(** ** Upload file names *)

(** [Bucket.upload] sends one file part, whose name holds no ["/"] and is
    either the whole [path] or what follows its last ["/"]. *)
Theorem upload_filename_last_segment (self : Bucket) (path file : string)
  (cache_control : Z) (mime_type : string) (upsert : bool) :
  exists part,
    req_files (upload_request self path file cache_control mime_type upsert)
      = Some [("file", part)]
    /\ has_char "/"%char (part_filename part) = false
    /\ (path = part_filename part \/ exists dir, path = dir ++ "/" ++ part_filename part).
Proof.
  eexists. split; [reflexivity |]. simpl.
  destruct (rsplit_once_spec "/"%char path) as [[Hn Hr] | [a [b [Hr [Hp Hb]]]]];
    rewrite Hr; unfold py_last; simpl.
  - split; [exact Hn | left; reflexivity].
  - split; [exact Hb | right; exists a; exact Hp].
Qed.

(** ** The further properties at concrete inputs *)

Lemma realtime_url_scheme_witness :
  supa_realtime_url (Supa_init ("http" ++ "s://project.supabase.co") "anon-key")
  = "ws" ++ "s://project.supabase.co" ++ "/realtime/v1".
Proof.
  apply (realtime_url_scheme "s://project.supabase.co" "anon-key").
  vm_compute. reflexivity.
Defined.


Lemma list_buckets_share_session_witness :
  let bs := match snd (list_buckets Basic.json_loads Basic.fromisoformat ex_two_buckets
                         ex_client) with
            | Ok bs => bs
            | Err _ => []
            end in
  Forall (fun b => b_client b = sc_client ex_client) bs.
Proof.
  intros bs.
  apply (list_buckets_share_session Basic.json_loads Basic.fromisoformat ex_two_buckets
           ex_client bs).
  vm_compute. reflexivity.
Defined.

Lemma get_bucket_parses_witness :
  get_bucket Basic.json_loads Basic.fromisoformat ex_one_bucket ex_client "avatars"
  = ([get_bucket_request ex_client "avatars"],
     Ok (mk_Bucket (PStr "avatars") (PStr "avatars") (PStr "u1") (PBool false)
           (PDateTime (mk_datetime 2021 6 1 12 0 0))
           (PDateTime (mk_datetime 2021 6 2 8 30 0)) (sc_client ex_client))).
Proof.
  apply (get_bucket_parses Basic.json_loads Basic.fromisoformat ex_one_bucket ex_client
           "avatars"
           [("id", PStr "avatars"); ("name", PStr "avatars"); ("owner", PStr "u1");
            ("public", PBool false); ("created_at", PStr "2021-06-01T12:00:00");
            ("updated_at", PStr "2021-06-02T08:30:00")]
           (PStr "avatars") (PStr "avatars") (PStr "u1") (PBool false)
           "2021-06-01T12:00:00" "2021-06-02T08:30:00"
           (mk_datetime 2021 6 1 12 0 0) (mk_datetime 2021 6 2 8 30 0));
    vm_compute; reflexivity.
Defined.

Lemma get_bucket_unknown_field_witness :
  get_bucket Basic.json_loads Basic.fromisoformat ex_bucket_with_limit ex_client "avatars"
  = ([get_bucket_request ex_client "avatars"],
     Err (TypeError "Bucket.__init__() got unexpected or missing arguments")).
Proof.
  apply (get_bucket_unknown_field Basic.json_loads Basic.fromisoformat ex_bucket_with_limit
           ex_client "avatars"
           [("id", PStr "avatars"); ("name", PStr "avatars"); ("owner", PStr "u1");
            ("public", PBool false); ("file_size_limit", PInt 1048576);
            ("created_at", PStr "2021-06-01T12:00:00");
            ("updated_at", PStr "2021-06-02T08:30:00")]
           "file_size_limit" (PInt 1048576)).
  - vm_compute. reflexivity.
  - vm_compute. reflexivity.
  - cbn. right; right; right; right; left. reflexivity.
  - cbn. intuition discriminate.
Defined.

Lemma list_buckets_empty_witness :
  list_buckets Basic.json_loads Basic.fromisoformat ex_empty_array ex_client
  = ([list_buckets_request ex_client], Ok []).
Proof.
  apply (list_buckets_empty Basic.json_loads Basic.fromisoformat ex_empty_array ex_client);
    vm_compute; reflexivity.
Defined.

Lemma bucket_list_empty_witness :
  Bucket_list Basic.json_loads Basic.fromisoformat ex_empty_array ex_bucket (Some "folder") []
  = ([list_request ex_bucket (Some "folder") []], Ok []).
Proof.
  apply (bucket_list_empty Basic.json_loads Basic.fromisoformat ex_empty_array ex_bucket
           (Some "folder") []);
    vm_compute; reflexivity.
Defined.

Lemma download_returns_raw_body_witness :
  download Basic.json_loads ex_raw_bytes ex_bucket "folder/cat.png"
  = ([download_request (b_client ex_bucket) (py_str (b_name ex_bucket) ++ "/" ++ "folder/cat.png")],
     Ok "PNG raw bytes").
Proof.
  apply (download_returns_raw_body Basic.json_loads ex_raw_bytes ex_bucket "folder/cat.png").
  vm_compute. reflexivity.
Defined.

Lemma json_ops_return_decoded_body_witness :
  run_op Basic.json_loads Basic.fromisoformat ex_now ex_ack
    (OpMove ex_bucket "folder/cat.png" "folder/newcat.png")
  = ([op_request (OpMove ex_bucket "folder/cat.png" "folder/newcat.png")],
     match Basic.json_loads (content (ex_ack (op_request
             (OpMove ex_bucket "folder/cat.png" "folder/newcat.png")))) with
     | Some v => Ok (RValue v)
     | None => Err JSONDecodeError
     end).
Proof.
  apply (json_ops_return_decoded_body Basic.json_loads Basic.fromisoformat ex_now ex_ack
           (OpMove ex_bucket "folder/cat.png" "folder/newcat.png"));
    vm_compute; reflexivity.
Defined.

Lemma create_signed_url_result_witness :
  create_signed_url Basic.json_loads ex_signed ex_bucket "cat.png" 60
  = ([create_signed_url_request ex_bucket "cat.png" 60],
     Ok (PStr "/object/sign/avatars/cat.png?token=t")).
Proof.
  apply (create_signed_url_result Basic.json_loads ex_signed ex_bucket "cat.png" 60
           [("signedURL", PStr "/object/sign/avatars/cat.png?token=t")]);
    vm_compute; reflexivity.
Defined.

Lemma bucket_lifecycle_by_id_witness :
  Bucket_delete Basic.json_loads ex_ack ex_bucket
    = delete_bucket Basic.json_loads ex_ack ex_client "avatars-id"
  /\ Bucket_empty Basic.json_loads ex_ack ex_bucket
    = empty_bucket Basic.json_loads ex_ack ex_client "avatars-id".
Proof.
  apply (bucket_lifecycle_by_id Basic.json_loads ex_ack ex_bucket ex_client "avatars-id");
    reflexivity.
Defined.

Lemma object_requests_route_by_name_witness :
  (forall path, remove_request ex_bucket path = remove_request ex_bucket_other_id path)
  /\ (forall path, download_request (b_client ex_bucket) (py_str (b_name ex_bucket) ++ "/" ++ path)
        = download_request (b_client ex_bucket_other_id)
            (py_str (b_name ex_bucket_other_id) ++ "/" ++ path))
  /\ (forall path options, list_request ex_bucket path options
                           = list_request ex_bucket_other_id path options)
  /\ (forall path file cc mt u, upload_request ex_bucket path file cc mt u
                                = upload_request ex_bucket_other_id path file cc mt u)
  /\ (forall paths, bulk_remove_request ex_bucket paths
                    = bulk_remove_request ex_bucket_other_id paths)
  /\ (forall path e, create_signed_url_request ex_bucket path e
                     = create_signed_url_request ex_bucket_other_id path e).
Proof.
  apply (object_requests_route_by_name ex_bucket ex_bucket_other_id); reflexivity.
Defined.
